(** * Deploy-Kit: a shallow embedding of [src/main.py]

    The program loads a JSON configuration, then runs one of four actions
    (deploy, status, restart, backup) chosen by [sys.argv].  Everything it
    does to the outside world goes through a handful of library calls:
    [Path.exists], [open] + [json.load], [subprocess.run], [datetime.now],
    [print] and the logger.  The embedding keeps the control flow of each
    method and replaces those calls by an explicit environment ([World])
    and an explicit trace of the calls made ([event]). *)

From Stdlib Require Import List String Ascii ZArith Bool Arith Lia.
From Stdlib Require Import Floats.SpecFloat Numbers.DecimalString.
Import ListNotations.
Set Warnings "-register-all".
Local Open Scope list_scope.
Local Open Scope string_scope.

(** ** Python values

    What [json.load] can return, and what the methods put in their result
    dictionaries.  A dict is an association list in insertion order. *)

Inductive value : Type :=
| VNone
| VBool (b : bool)
| VInt (n : Z)
| VFloat (f : spec_float)
| VStr (s : string)
| VList (items : list value)
| VDict (entries : list (string * value)).

(** [bool(v)], as [not v] and [if v] use it. *)
Definition truthy (v : value) : bool :=
  match v with
  | VNone => false
  | VBool b => b
  | VInt n => negb (n =? 0)%Z
  | VFloat (S754_zero _) => false
  | VFloat _ => true
  | VStr s => negb (s =? "")
  | VList l => match l with [] => false | _ => true end
  | VDict d => match d with [] => false | _ => true end
  end.

(** [type(v).__name__], which Python's own error messages quote. *)
Definition type_name (v : value) : string :=
  match v with
  | VNone => "NoneType"
  | VBool _ => "bool"
  | VInt _ => "int"
  | VFloat _ => "float"
  | VStr _ => "str"
  | VList _ => "list"
  | VDict _ => "dict"
  end.

Fixpoint lookup (k : string) (d : list (string * value)) : option value :=
  match d with
  | [] => None
  | (k', v) :: d' => if k' =? k then Some v else lookup k d'
  end.

(** [d.get(k, default)] on the entries of a dict. *)
Definition get_or (d : list (string * value)) (k : string) (default : value) : value :=
  match lookup k d with
  | Some v => v
  | None => default
  end.

(** ** Exceptions and outcomes *)

(** [subprocess.CalledProcessError] is the one exception class the code
    tells apart; any other [Exception] is its class name and its [str(e)]. *)
Inductive exn : Type :=
| CalledProcessError (returncode : Z) (cmd : list value) (stdout stderr : string)
| Exception (cls msg : string).

Inductive outcome (A : Type) : Type :=
| Ok (a : A)
| Raise (e : exn).
Arguments Ok {A} a.
Arguments Raise {A} e.

(** ** The trace of library calls *)

Inductive level : Type := DEBUG | INFO | WARNING | ERROR.

Inductive event : Type :=
| Print (text : string)              (* print(text) *)
| PrintJson (v : value)              (* print(json.dumps(v, indent=2)) *)
| Log (lvl : level) (msg : string)   (* self.logger.<lvl>(msg) *)
| BasicConfig (lvl : Z)              (* logging.basicConfig(level=lvl, ...) *)
| Run (argv : list value).           (* subprocess.run(argv, ...) *)

Definition trace := list event.

(** The child-process invocations of a trace, in order. *)
Fixpoint runs (t : trace) : list (list value) :=
  match t with
  | [] => []
  | Run argv :: t' => argv :: runs t'
  | _ :: t' => runs t'
  end.

(** ** A monad for code that appends to the trace and may raise *)

Definition M (A : Type) : Type := trace -> outcome A * trace.

Definition ret {A} (a : A) : M A := fun t => (Ok a, t).
Definition raise {A} (e : exn) : M A := fun t => (Raise e, t).
Definition bind {A B} (m : M A) (k : A -> M B) : M B :=
  fun t => match m t with
           | (Ok a, t') => k a t'
           | (Raise e, t') => (Raise e, t')
           end.
Definition emit (e : event) : M unit := fun t => (Ok tt, (t ++ [e])%list).
Definition lift {A} (o : outcome A) : M A := fun t => (o, t).

(** [try: body except Exception as e: handler e].  Every [exn] of the
    model is an [Exception]; what the body did before raising stays done. *)
Definition try_except {A} (body : M A) (handler : exn -> M A) : M A :=
  fun t => match body t with
           | (Ok a, t') => (Ok a, t')
           | (Raise e, t') => handler e t'
           end.

Declare Scope py_scope.
Delimit Scope py_scope with py.
Notation "x <- m ;; k" := (bind m (fun x => k))
  (at level 61, m at next level, right associativity) : py_scope.
Notation "m ;; k" := (bind m (fun _ => k))
  (at level 61, right associativity) : py_scope.
Local Open Scope py_scope.

(** ** Dates *)

Record datetime : Type := {
  year : nat; month : nat; day : nat;
  hour : nat; minute : nat; second : nat;
  microsecond : nat
}.

(** The range of [datetime] fields for which [%Y] prints four digits. *)
Definition valid_datetime (d : datetime) : Prop :=
  1000 <= year d < 10 ^ 4 /\ 1 <= month d <= 12 /\ 1 <= day d <= 31 /\
  hour d < 24 /\ minute d < 60 /\ second d < 60 /\ microsecond d < 10 ^ 6.

Definition digit (n : nat) : ascii := ascii_of_nat (48 + n mod 10).

(** [n] in decimal, the [w] lowest digits, zero-padded. *)
Fixpoint pad (w n : nat) : string :=
  match w with
  | 0 => ""
  | S w' => pad w' (n / 10) ++ String (digit n) ""
  end.

(** [d.strftime('%Y%m%d_%H%M%S')] *)
Definition strftime_Ymd_HMS (d : datetime) : string :=
  pad 4 (year d) ++ pad 2 (month d) ++ pad 2 (day d) ++ "_" ++
  pad 2 (hour d) ++ pad 2 (minute d) ++ pad 2 (second d).

(** [d.isoformat()] *)
Definition isoformat (d : datetime) : string :=
  pad 4 (year d) ++ "-" ++ pad 2 (month d) ++ "-" ++ pad 2 (day d) ++ "T" ++
  pad 2 (hour d) ++ ":" ++ pad 2 (minute d) ++ ":" ++ pad 2 (second d) ++
  (if microsecond d =? 0 then "" else "." ++ pad 6 (microsecond d))%nat.

(** Reading a zero-padded decimal field back. *)
Definition digit_value (c : ascii) : option nat :=
  let n := nat_of_ascii c in
  if ((48 <=? n) && (n <=? 57))%nat then Some (n - 48) else None.

Fixpoint read_digits (acc : nat) (s : string) : option nat :=
  match s with
  | "" => Some acc
  | String c s' =>
      match digit_value c with
      | Some d => read_digits (10 * acc + d) s'
      | None => None
      end
  end.

(** ** Text that Python's library renders

    [str()] of a value that is not a string and the message of a
    [CalledProcessError] are library code; the program only passes their
    results on, so the embedding takes them as an interface. *)

Class PyText : Type := {
  py_str : value -> string;                    (* str(v), v not a str *)
  called_process_error_str : list value -> Z -> string
                                               (* str(CalledProcessError(rc, cmd)) *)
}.

(** ** The environment *)

Inductive proc_result : Type :=
| Exited (returncode : Z) (stdout stderr : string)
    (* the child ran to completion *)
| NotLaunched (cls msg : string).
    (* subprocess.run raised something else: no such interpreter, a
       non-string argument, undecodable output, ... *)

Record World : Type := {
  config_path : string;
    (* str(Path(__file__).parent.parent / 'config' / 'config.json') *)
  script_file : string -> string;
    (* str(Path(__file__).parent.parent / 'scripts' / name) *)
  path_exists : string -> outcome bool;        (* Path(p).exists() *)
  open_json_load : string -> outcome value;    (* open(p) and json.load *)
  child : list (list value) -> list value -> proc_result;
    (* what running argv does, given the commands run before it *)
  now : datetime                               (* datetime.now() *)
}.

(** ** String helpers *)

Definition upper_ascii (c : ascii) : ascii :=
  let n := nat_of_ascii c in
  if ((97 <=? n) && (n <=? 122))%nat then ascii_of_nat (n - 32) else c.

(** [s.upper()].  Strings are byte strings here: a letter outside ASCII
    is left as it is. *)
Fixpoint str_upper (s : string) : string :=
  match s with
  | "" => ""
  | String c s' => String (upper_ascii c) (str_upper s')
  end.

(** Whether every character of [s] is ASCII, so that the characters of
    the Python string are the bytes of [s]. *)
Fixpoint ascii_only (s : string) : bool :=
  match s with
  | "" => true
  | String c s' => (nat_of_ascii c <? 128)%nat && ascii_only s'
  end.

Fixpoint chars (s : string) : list value :=
  match s with
  | "" => []
  | String c s' => VStr (String c "") :: chars s'
  end.

(** ** Operations on values that can raise *)

(** [obj.get(k, default)]: only a dict has the method. *)
Definition py_get (obj : value) (k : string) (default : value) : outcome value :=
  match obj with
  | VDict d => Ok (get_or d k default)
  | _ => Raise (Exception "AttributeError"
                  ("'" ++ type_name obj ++ "' object has no attribute 'get'"))
  end.

(** [d[k]] on a dict the program built itself. *)
Definition py_getitem (d : value) (k : string) : outcome value :=
  match d with
  | VDict entries =>
      match lookup k entries with
      | Some v => Ok v
      | None => Raise (Exception "KeyError" ("'" ++ k ++ "'"))
      end
  | _ => Raise (Exception "TypeError"
                  ("'" ++ type_name d ++ "' object is not subscriptable"))
  end.

(** [v.upper()]: only a str has the method. *)
Definition py_upper (v : value) : outcome string :=
  match v with
  | VStr s => Ok (str_upper s)
  | _ => Raise (Exception "AttributeError"
                  ("'" ++ type_name v ++ "' object has no attribute 'upper'"))
  end.

(** What [for x in v] iterates over. *)
Definition py_iter (v : value) : outcome (list value) :=
  match v with
  | VList l => Ok l
  | VStr s => Ok (chars s)
  | VDict d => Ok (map (fun kv => VStr (fst kv)) d)
  | _ => Raise (Exception "TypeError"
                  ("'" ++ type_name v ++ "' object is not iterable"))
  end.

(** The level constants of the [logging] module, by name. *)
Definition logging_level (name : string) : option Z :=
  if name =? "CRITICAL" then Some 50%Z
  else if name =? "FATAL" then Some 50%Z
  else if name =? "ERROR" then Some 40%Z
  else if name =? "WARNING" then Some 30%Z
  else if name =? "WARN" then Some 30%Z
  else if name =? "INFO" then Some 20%Z
  else if name =? "DEBUG" then Some 10%Z
  else if name =? "NOTSET" then Some 0%Z
  else None.

(** ** The program *)

Record DeployKit : Type := { config : value }.

Inductive CompletedProcess : Type :=
  Completed (stdout stderr : string).

(** How [main] ends: it returns, or it calls [sys.exit(code)]. *)
Inductive ending : Type := Returns | SysExit (code : Z).

Definition usage : string := "
Deploy-Kit Usage:
  python main.py deploy [script-name]  - Execute deployment script
  python main.py status                - Show deployment status
  python main.py restart               - Restart configured services
  python main.py backup [path]         - Create deployment backup

Examples:
  python main.py deploy                # Run default deploy.sh
  python main.py deploy custom         # Run custom.sh
  python main.py status                # Show current status
  python main.py restart               # Restart all services
  python main.py backup                # Create timestamped backup
        ".

Section Program.

Context {T : PyText} (W : World).

(** [str(e)] *)
Definition exn_str (e : exn) : string :=
  match e with
  | CalledProcessError rc cmd _ _ => called_process_error_str cmd rc
  | Exception _ msg => msg
  end.

(** [f"{v}"] *)
Definition fmt (v : value) : string :=
  match v with
  | VStr s => s
  | _ => py_str v
  end.

(** [subprocess.run(argv, check=True, capture_output=True, text=True)] *)
Definition subprocess_run (argv : list value) : M CompletedProcess :=
  fun t =>
    let t' := (t ++ [Run argv])%list in
    match child W (runs t) argv with
    | Exited rc out err =>
        if (rc =? 0)%Z then (Ok (Completed out err), t')
        else (Raise (CalledProcessError rc argv out err), t')
    | NotLaunched cls msg => (Raise (Exception cls msg), t')
    end.

Definition get_default_config : value :=
  VDict [("environment", VStr "development");
         ("logLevel", VStr "INFO");
         ("deploymentPath", VStr "/var/www/html");
         ("backupEnabled", VBool true);
         ("services", VList [])].

Definition load_config : M value :=
  try_except
    (found <- lift (path_exists W (config_path W)) ;;
     if found then lift (open_json_load W (config_path W))
     else
       emit (Print ("Config file not found at " ++ config_path W
                    ++ ", using defaults")) ;;
       ret get_default_config)
    (fun e =>
       emit (Print ("Failed to load config: " ++ exn_str e)) ;;
       ret get_default_config).

(** [getattr(logging, name.upper())], then [logging.basicConfig].  A name
    that is not a level constant raises: [getattr] finds no such
    attribute.  (The module has two more upper-case attributes,
    BASIC_FORMAT and _STYLES, that are no levels; for them it is
    [basicConfig] that raises, which the model does not tell apart.) *)
Definition setup_logging (cfg : value) : M unit :=
  name <- lift (py_get cfg "logLevel" (VStr "INFO")) ;;
  upper <- lift (py_upper name) ;;
  match logging_level upper with
  | Some lvl => emit (BasicConfig lvl)
  | None => raise (Exception "AttributeError"
                     ("module 'logging' has no attribute '" ++ upper ++ "'"))
  end.

(** [DeployKit.__init__] *)
Definition DeployKit_init : M DeployKit :=
  cfg <- load_config ;;
  setup_logging cfg ;;
  ret {| config := cfg |}.

Definition execute_deployment (self : DeployKit) (script_name : string) : M value :=
  emit (Log INFO ("Starting deployment: " ++ script_name)) ;;
  try_except
    (let script_path := script_file W (script_name ++ ".sh") in
     found <- lift (path_exists W script_path) ;;
     if negb found then
       raise (Exception "FileNotFoundError"
                ("Deployment script not found: " ++ script_path))
     else
       emit (Log INFO ("Executing script: " ++ script_path)) ;;
       result <- subprocess_run [VStr "bash"; VStr script_path] ;;
       let '(Completed out err) := result in
       emit (Log INFO "Deployment completed successfully") ;;
       emit (Log INFO ("Output: " ++ out)) ;;
       ret (VDict [("success", VBool true);
                   ("output", VStr out);
                   ("stderr", VStr err)]))
    (fun e =>
       match e with
       | CalledProcessError rc _ _ err =>
           emit (Log ERROR ("Deployment failed with exit code "
                            ++ py_str (VInt rc) ++ ": " ++ err)) ;;
           ret (VDict [("success", VBool false);
                       ("error", VStr err);
                       ("exit_code", VInt rc)])
       | _ =>
           emit (Log ERROR ("Deployment failed: " ++ exn_str e)) ;;
           ret (VDict [("success", VBool false);
                       ("error", VStr (exn_str e))])
       end).

Definition get_status (self : DeployKit) : M value :=
  environment <- lift (py_get (config self) "environment" VNone) ;;
  let timestamp := isoformat (now W) in
  services <- lift (py_get (config self) "services" (VList [])) ;;
  ret (VDict [("environment", environment);
              ("timestamp", VStr timestamp);
              ("config", config self);
              ("services", services)]).

(** The body of the loop of [restart_services], for one service. *)
Definition restart_one (service : value) : M unit :=
  try_except
    (emit (Log INFO ("Restarting service: " ++ fmt service)) ;;
     _ <- subprocess_run [VStr "sudo"; VStr "systemctl"; VStr "restart"; service] ;;
     emit (Log INFO ("Service " ++ fmt service ++ " restarted successfully")))
    (fun e =>
       match e with
       | CalledProcessError _ _ _ err =>
           emit (Log ERROR ("Failed to restart service " ++ fmt service
                            ++ ": " ++ err))
       | _ =>
           emit (Log ERROR ("Failed to restart service " ++ fmt service
                            ++ ": " ++ exn_str e))
       end).

(** [for x in items: body x] *)
Fixpoint for_each {A} (items : list A) (body : A -> M unit) : M unit :=
  match items with
  | [] => ret tt
  | x :: rest => body x ;; for_each rest body
  end.

Definition restart_services (self : DeployKit) : M value :=
  emit (Log INFO "Restarting services...") ;;
  services <- lift (py_get (config self) "services" (VList [])) ;;
  if negb (truthy services) then
    emit (Log WARNING "No services configured for restart") ;;
    ret VNone
  else
    items <- lift (py_iter services) ;;
    for_each items restart_one ;;
    ret VNone.

(** [f"{deployment_path}_backup_{timestamp}"], at the current time. *)
Definition derived_backup_path (deployment_path : value) : string :=
  fmt deployment_path ++ "_backup_" ++ strftime_Ymd_HMS (now W).

(** [backup_path] after [if not backup_path: backup_path = ...]: both
    [None] and the empty string are false. *)
Definition resolve_backup_path (backup_path : option string)
    (deployment_path : value) : string :=
  match backup_path with
  | None => derived_backup_path deployment_path
  | Some s => if s =? "" then derived_backup_path deployment_path else s
  end.

Definition backup_deployment (self : DeployKit) (backup_path : option string) : M value :=
  enabled <- lift (py_get (config self) "backupEnabled" (VBool true)) ;;
  if negb (truthy enabled) then
    emit (Log INFO "Backup is disabled in configuration") ;;
    ret (VDict [("success", VBool false); ("reason", VStr "Backup disabled")])
  else
    try_except
      (deployment_path <-
         lift (py_get (config self) "deploymentPath" (VStr "/var/www/html")) ;;
       let backup_path := resolve_backup_path backup_path deployment_path in
       emit (Log INFO ("Creating backup: " ++ fmt deployment_path
                       ++ " -> " ++ backup_path)) ;;
       _ <- subprocess_run [VStr "cp"; VStr "-r"; deployment_path; VStr backup_path] ;;
       emit (Log INFO ("Backup created successfully: " ++ backup_path)) ;;
       ret (VDict [("success", VBool true); ("backup_path", VStr backup_path)]))
      (fun e =>
         emit (Log ERROR ("Backup failed: " ++ exn_str e)) ;;
         ret (VDict [("success", VBool false); ("error", VStr (exn_str e))])).

(** [if not result['success']: sys.exit(1)] *)
Definition exit_unless_success (result : value) : M ending :=
  ok <- lift (py_getitem result "success") ;;
  if negb (truthy ok) then ret (SysExit 1) else ret Returns.

Definition main (argv : list string) : M ending :=
  deploy_kit <- DeployKit_init ;;
  if (List.length argv <? 2)%nat then
    emit (Print usage) ;;
    ret Returns
  else
    let command := nth 1 argv "" in
    if command =? "deploy" then
      let script_name := if (2 <? List.length argv)%nat then nth 2 argv "" else "deploy" in
      result <- execute_deployment deploy_kit script_name ;;
      exit_unless_success result
    else if command =? "status" then
      status <- get_status deploy_kit ;;
      emit (PrintJson status) ;;
      ret Returns
    else if command =? "restart" then
      _ <- restart_services deploy_kit ;;
      ret Returns
    else if command =? "backup" then
      let backup_path := if (2 <? List.length argv)%nat then Some (nth 2 argv "") else None in
      result <- backup_deployment deploy_kit backup_path ;;
      exit_unless_success result
    else
      emit (Print ("Unknown command: " ++ command)) ;;
      ret (SysExit 1).

(** The exit status of the process that runs [main] from an empty trace:
    0 when [main] returns, the code given to [sys.exit], and 1 when an
    exception reaches the top level. *)
Definition exit_status (argv : list string) : Z :=
  match fst (main argv []) with
  | Ok Returns => 0%Z
  | Ok (SysExit code) => code
  | Raise _ => 1%Z
  end.

End Program.

(** ** The vocabulary of the specification *)

(** The four actions, and the method that performs each. *)
Inductive action : Type :=
| Deploy (script_name : string)
| Status
| Restart
| Backup (backup_path : option string).

Definition perform {T : PyText} (W : World) (self : DeployKit) (a : action) : M value :=
  match a with
  | Deploy script_name => execute_deployment W self script_name
  | Status => get_status W self
  | Restart => restart_services W self
  | Backup backup_path => backup_deployment W self backup_path
  end.

(** A result record: a dict with a boolean [success]. *)
Definition action_result (v : value) : Prop :=
  exists d b, v = VDict d /\ lookup "success" d = Some (VBool b).

(** A successful result carries neither [error] nor [exit_code]. *)
Definition unambiguous (v : value) : Prop :=
  forall d, v = VDict d -> lookup "success" d = Some (VBool true) ->
            lookup "error" d = None /\ lookup "exit_code" d = None.

(** A decimal field of width [w] that reads as [n]. *)
Definition field (w n : nat) (s : string) : Prop :=
  String.length s = w /\ read_digits 0 s = Some n.

(** [s] is the time [d] written as YYYYMMDD_HHMMSS. *)
Definition is_YYYYMMDD_HHMMSS (d : datetime) (s : string) : Prop :=
  exists Y Mo D H Mi S,
    s = Y ++ Mo ++ D ++ "_" ++ H ++ Mi ++ S /\
    field 4 (year d) Y /\ field 2 (month d) Mo /\ field 2 (day d) D /\
    field 2 (hour d) H /\ field 2 (minute d) Mi /\ field 2 (second d) S.

(** The command line of one service restart. *)
Definition restart_command (service : value) : list value :=
  [VStr "sudo"; VStr "systemctl"; VStr "restart"; service].

(** ** A concrete environment, to run the model on examples *)

Definition decimal (n : Z) : string := NilZero.string_of_int (Z.to_int n).

(** [repr(v)]: exact on [None], booleans, integers, strings that need no
    escaping, and lists and dicts of these.  A float other than a zero,
    an infinity or nan is shown as mantissa and exponent. *)
Fixpoint example_repr (v : value) : string :=
  match v with
  | VNone => "None"
  | VBool true => "True"
  | VBool false => "False"
  | VInt n => decimal n
  | VFloat S754_nan => "nan"
  | VFloat (S754_infinity sign) => if sign then "-inf" else "inf"
  | VFloat (S754_zero sign) => if sign then "-0.0" else "0.0"
  | VFloat (S754_finite sign m e) =>
      (if sign then "-" else "") ++ decimal (Zpos m) ++ "*2**" ++ decimal e
  | VStr s => "'" ++ s ++ "'"
  | VList items => "[" ++ concat ", " (map example_repr items) ++ "]"
  | VDict entries =>
      "{" ++ concat ", "
               (map (fun kv => match kv with
                               | (k, x) => "'" ++ k ++ "': " ++ example_repr x
                               end) entries)
          ++ "}"
  end.

(** The text interface of the examples.  A child killed by a signal is
    reported by the number of the signal. *)
Definition example_text : PyText := {|
  py_str := example_repr;
  called_process_error_str := fun cmd rc =>
    if (rc <? 0)%Z then
      "Command '" ++ example_repr (VList cmd) ++ "' died with unknown signal "
      ++ decimal (- rc) ++ "."
    else
      "Command '" ++ example_repr (VList cmd)
      ++ "' returned non-zero exit status " ++ decimal rc ++ "."
|}.

(** An installation under /opt/deploy-kit with one script, deploy.sh,
    at 2024-03-09 14:05:07.  [cfg] is what the configuration file holds
    ([None]: there is no file) and [proc] is how child processes end. *)
Definition example_world (cfg : option value)
    (proc : list (list value) -> list value -> proc_result) : World := {|
  config_path := "/opt/deploy-kit/config/config.json";
  script_file := fun name => "/opt/deploy-kit/scripts/" ++ name;
  path_exists := fun p =>
    if p =? "/opt/deploy-kit/config/config.json"
    then Ok (match cfg with Some _ => true | None => false end)
    else Ok (p =? "/opt/deploy-kit/scripts/deploy.sh");
  open_json_load := fun _ =>
    match cfg with
    | Some v => Ok v
    | None => Raise (Exception "FileNotFoundError" "No such file or directory")
    end;
  child := proc;
  now := {| year := 2024; month := 3; day := 9;
            hour := 14; minute := 5; second := 7; microsecond := 0 |}
|}.

(** A configuration with two services. *)
Definition two_services : value :=
  VDict [("environment", VStr "production");
         ("services", VList [VStr "a"; VStr "b"])].

(** A configuration that turns backups off. *)
Definition backups_off : value :=
  VDict [("backupEnabled", VBool false); ("deploymentPath", VStr "/srv/app")].

(** A configuration whose services value is a string, not a list. *)
Definition services_as_text : value :=
  VDict [("services", VStr "db")].

(** A configuration whose services value is a number. *)
Definition services_as_number : value :=
  VDict [("services", VInt 5)].

(** A configuration that spells the flag as a string. *)
Definition backups_off_as_text : value :=
  VDict [("backupEnabled", VStr "false")].


(** A configuration whose level is no level of the logging module. *)
Definition level_unknown : value :=
  VDict [("logLevel", VStr "verbose")].

(** A configuration file that holds a JSON list. *)
Definition not_a_dict : value :=
  VList [VStr "a"; VStr "b"].

(** The time of the examples, 500 microseconds on. *)
Definition a_moment_later : datetime :=
  {| year := 2024; month := 3; day := 9;
     hour := 14; minute := 5; second := 7; microsecond := 500 |}.

(** The same environment at another time. *)
Definition at_time (W : World) (d : datetime) : World := {|
  config_path := config_path W;
  script_file := script_file W;
  path_exists := path_exists W;
  open_json_load := open_json_load W;
  child := child W;
  now := d
|}.

(** Every child exits 0 and prints "done". *)
Definition all_succeed : list (list value) -> list value -> proc_result :=
  fun _ _ => Exited 0 "done" "".

(** Every child exits 2 and writes "boom" to standard error. *)
Definition all_fail : list (list value) -> list value -> proc_result :=
  fun _ _ => Exited 2 "" "boom".

(** [bash] cannot be started. *)
Definition no_interpreter : list (list value) -> list value -> proc_result :=
  fun _ _ => NotLaunched "FileNotFoundError"
               "[Errno 2] No such file or directory: 'bash'".

(** Restarting service "a" fails with exit status 5; everything else
    succeeds. *)
Definition a_fails : list (list value) -> list value -> proc_result :=
  fun _ argv =>
    match argv with
    | [_; _; _; VStr "a"] => Exited 5 "" "Unit a.service not found."
    | _ => Exited 0 "" ""
    end.

(** * Properties *)

(** ** The trace *)

Lemma runs_app (a b : trace) : runs (a ++ b)%list = (runs a ++ runs b)%list.
Proof.
  induction a as [|e a IH]; simpl; [reflexivity|].
  destruct e; simpl; rewrite IH; reflexivity.
Qed.

Lemma runs_log (t : trace) (lvl : level) (msg : string) :
  runs (t ++ [Log lvl msg])%list = runs t.
Proof. rewrite runs_app; simpl; apply app_nil_r. Qed.

Lemma runs_run (t : trace) (argv : list value) :
  runs (t ++ [Run argv])%list = (runs t ++ [argv])%list.
Proof. rewrite runs_app; reflexivity. Qed.

Ltac runs_simpl := repeat (rewrite runs_log || rewrite runs_run).

Ltac monad := unfold bind, ret, raise, emit, lift, try_except in *.

(** ** Time stamps *)

Lemma length_append (a b : string) :
  String.length (a ++ b) = String.length a + String.length b.
Proof. induction a as [|c a IH]; simpl; [reflexivity|]. rewrite IH; reflexivity. Qed.

Lemma length_pad (w n : nat) : String.length (pad w n) = w.
Proof.
  revert n. induction w as [|w IH]; intros n; simpl; [reflexivity|].
  rewrite length_append, IH. simpl. lia.
Qed.

Lemma digit_value_digit (n : nat) : digit_value (digit n) = Some (n mod 10).
Proof.
  unfold digit_value, digit.
  assert (Hlt : n mod 10 < 10) by (apply Nat.mod_upper_bound; lia).
  rewrite nat_ascii_embedding by lia.
  replace (48 + n mod 10 - 48) with (n mod 10) by lia.
  destruct (Nat.leb_spec 48 (48 + n mod 10)); [|lia].
  destruct (Nat.leb_spec (48 + n mod 10) 57); [|lia].
  reflexivity.
Qed.

Lemma read_digits_append (a b : string) (acc : nat) :
  read_digits acc (a ++ b) =
    match read_digits acc a with
    | Some x => read_digits x b
    | None => None
    end.
Proof.
  revert acc. induction a as [|c a IH]; intros acc; simpl; [reflexivity|].
  destruct (digit_value c); [apply IH|reflexivity].
Qed.

Lemma read_digits_pad (w n acc : nat) :
  read_digits acc (pad w n) = Some (acc * 10 ^ w + n mod 10 ^ w).
Proof.
  revert n acc. induction w as [|w IH]; intros n acc.
  - simpl. f_equal. lia.
  - cbn [pad]. rewrite read_digits_append, IH. cbn [read_digits].
    rewrite digit_value_digit. f_equal.
    rewrite Nat.pow_succ_r', Nat.Div0.mod_mul_r. lia.
Qed.

(** Reading a padded field gives the number back when it fits. *)
Lemma field_pad (w n : nat) : n < 10 ^ w -> field w n (pad w n).
Proof.
  intros H. split; [apply length_pad|].
  rewrite read_digits_pad, Nat.mod_small by exact H. reflexivity.
Qed.

Lemma strftime_is_YYYYMMDD_HHMMSS (d : datetime) :
  valid_datetime d -> is_YYYYMMDD_HHMMSS d (strftime_Ymd_HMS d).
Proof.
  intros (Hy & Hmo & Hd & Hh & Hmi & Hs & _).
  exists (pad 4 (year d)), (pad 2 (month d)), (pad 2 (day d)),
         (pad 2 (hour d)), (pad 2 (minute d)), (pad 2 (second d)).
  split; [reflexivity|].
  repeat apply conj; apply field_pad;
    [apply Hy | change (10 ^ 2) with 100; lia ..].
Qed.

Section Properties.

Context {T : PyText} (W : World).

(** ** Start-up *)

Lemma load_config_no_file (t : trace) :
  path_exists W (config_path W) = Ok false ->
  load_config W t =
    (Ok get_default_config,
     (t ++ [Print ("Config file not found at " ++ config_path W
                   ++ ", using defaults")])%list).
Proof. intros H. unfold load_config. monad. rewrite H. reflexivity. Qed.

Lemma load_config_exists_raises (e : exn) (t : trace) :
  path_exists W (config_path W) = Raise e ->
  load_config W t =
    (Ok get_default_config,
     (t ++ [Print ("Failed to load config: " ++ exn_str e)])%list).
Proof. intros H. unfold load_config. monad. rewrite H. reflexivity. Qed.

Lemma load_config_cannot_load (e : exn) (t : trace) :
  open_json_load W (config_path W) = Raise e ->
  fst (load_config W t) = Ok get_default_config.
Proof.
  intros H. unfold load_config. monad.
  destruct (path_exists W (config_path W)) as [[|]|e']; rewrite ?H; reflexivity.
Qed.

(** The defaults pass [setup_logging]: their level is INFO. *)
Lemma setup_logging_defaults (t : trace) :
  setup_logging get_default_config t = (Ok tt, (t ++ [BasicConfig 20])%list).
Proof. reflexivity. Qed.

(** A constructed [DeployKit] holds a dict: [setup_logging] has called
    [.get] on the configuration, and only a dict has it. *)
Lemma init_config_is_dict (t t' : trace) (self : DeployKit) :
  DeployKit_init W t = (Ok self, t') -> exists d, config self = VDict d.
Proof.
  unfold DeployKit_init. monad.
  destruct (load_config W t) as [[cfg|e] t1]; [|discriminate].
  unfold setup_logging. monad.
  destruct cfg as [| | | | | |d]; simpl; try discriminate.
  destruct (py_upper _) as [up|e]; [|discriminate].
  destruct (logging_level up); [|discriminate].
  intros H; injection H as <- _. simpl. eauto.
Qed.

(** C5. Whenever the configuration file is missing, or checking for it or
    reading and parsing it raises, [load_config] returns exactly the
    documented defaults, and the [DeployKit] is constructed with them. *)
Theorem load_config_defaults (t : trace) :
  path_exists W (config_path W) = Ok false \/
  (exists e, path_exists W (config_path W) = Raise e) \/
  (exists e, open_json_load W (config_path W) = Raise e) ->
  fst (load_config W t) =
    Ok (VDict [("environment", VStr "development");
               ("logLevel", VStr "INFO");
               ("deploymentPath", VStr "/var/www/html");
               ("backupEnabled", VBool true);
               ("services", VList [])]) /\
  fst (load_config W t) = Ok get_default_config /\
  exists t', DeployKit_init W t = (Ok {| config := get_default_config |}, t').
Proof.
  intros H.
  assert (L : fst (load_config W t) = Ok get_default_config).
  { destruct H as [H|[[e H]|[e H]]].
    - rewrite (load_config_no_file _ H); reflexivity.
    - rewrite (load_config_exists_raises _ _ H); reflexivity.
    - apply (load_config_cannot_load _ _ H). }
  split; [exact L|]. split; [exact L|].
  unfold DeployKit_init. monad.
  destruct (load_config W t) as [o t1]; simpl in L; subst o.
  rewrite setup_logging_defaults. eauto.
Qed.

(** ** deploy *)

Lemma execute_deployment_not_found (self : DeployKit) (script_name : string) (t : trace) :
  path_exists W (script_file W (script_name ++ ".sh")) = Ok false ->
  execute_deployment W self script_name t =
    (Ok (VDict [("success", VBool false);
                ("error", VStr ("Deployment script not found: "
                                ++ script_file W (script_name ++ ".sh")))]),
     (t ++ [Log INFO ("Starting deployment: " ++ script_name)]
        ++ [Log ERROR ("Deployment failed: Deployment script not found: "
                       ++ script_file W (script_name ++ ".sh"))])%list).
Proof.
  intros H. unfold execute_deployment. monad. rewrite H. simpl.
  rewrite <- app_assoc. reflexivity.
Qed.

(** C1. On an existing script, the result of deploy follows the child:
    exit code 0 gives success with the captured standard output; a
    non-zero exit code [n] gives failure with the captured standard error
    and exit code [n]; a failure to run the child at all gives failure
    with the message of that failure. *)
Theorem execute_deployment_classifies (self : DeployKit) (script_name : string)
    (t : trace) :
  path_exists W (script_file W (script_name ++ ".sh")) = Ok true ->
  (forall out err,
      child W (runs t) [VStr "bash"; VStr (script_file W (script_name ++ ".sh"))]
        = Exited 0 out err ->
      fst (execute_deployment W self script_name t) =
        Ok (VDict [("success", VBool true);
                   ("output", VStr out);
                   ("stderr", VStr err)])) /\
  (forall n out err,
      n <> 0%Z ->
      child W (runs t) [VStr "bash"; VStr (script_file W (script_name ++ ".sh"))]
        = Exited n out err ->
      fst (execute_deployment W self script_name t) =
        Ok (VDict [("success", VBool false);
                   ("error", VStr err);
                   ("exit_code", VInt n)])) /\
  (forall cls msg,
      child W (runs t) [VStr "bash"; VStr (script_file W (script_name ++ ".sh"))]
        = NotLaunched cls msg ->
      fst (execute_deployment W self script_name t) =
        Ok (VDict [("success", VBool false);
                   ("error", VStr msg)])).
Proof.
  intros Hex.
  repeat split; intros;
    unfold execute_deployment, subprocess_run; monad;
    rewrite Hex; simpl; runs_simpl;
    match goal with H : child _ _ _ = _ |- _ => rewrite H end.
  - reflexivity.
  - destruct (Z.eqb_spec n 0); [contradiction|reflexivity].
  - reflexivity.
Qed.

(** C4. When the resolved script file does not exist, deploy returns a
    result with success false without running anything, and the process
    exits with status 1. *)
Theorem deploy_missing_script (script_name : string) :
  path_exists W (script_file W (script_name ++ ".sh")) = Ok false ->
  (forall self t, exists msg t',
      execute_deployment W self script_name t =
        (Ok (VDict [("success", VBool false); ("error", VStr msg)]), t') /\
      runs t' = runs t) /\
  (forall prog rest,
      exit_status W (prog :: "deploy" :: script_name :: rest) = 1%Z) /\
  (script_name = "deploy" -> forall prog, exit_status W [prog; "deploy"] = 1%Z).
Proof.
  intros H. split; [|split].
  - intros self t. rewrite (execute_deployment_not_found _ _ _ H).
    do 2 eexists. split; [reflexivity|].
    rewrite app_assoc. runs_simpl. reflexivity.
  - intros prog rest. unfold exit_status, main. monad.
    destruct (DeployKit_init W []) as [[dk|e] t1]; [|reflexivity].
    simpl. rewrite (execute_deployment_not_found _ _ _ H). reflexivity.
  - intros -> prog. unfold exit_status, main. monad.
    destruct (DeployKit_init W []) as [[dk|e] t1]; [|reflexivity].
    simpl. rewrite (execute_deployment_not_found _ _ _ H). reflexivity.
Qed.

(** ** restart *)

(** One iteration always completes and always makes its attempt. *)
Lemma restart_one_attempts (service : value) (t : trace) :
  exists t', restart_one W service t = (Ok tt, t') /\
             runs t' = (runs t ++ [restart_command service])%list.
Proof.
  unfold restart_one, subprocess_run, restart_command. monad. simpl. runs_simpl.
  destruct (child W (runs t) _) as [rc out err|cls msg].
  - destruct (rc =? 0)%Z; eexists; (split; [reflexivity|]);
      runs_simpl; reflexivity.
  - eexists; split; [reflexivity|]. runs_simpl. reflexivity.
Qed.

Lemma for_each_restart_one (services : list value) (t : trace) :
  exists t', for_each services (restart_one W) t = (Ok tt, t') /\
             runs t' = (runs t ++ map restart_command services)%list.
Proof.
  revert t. induction services as [|service rest IH]; intros t.
  - exists t. split; [reflexivity|]. simpl. rewrite app_nil_r. reflexivity.
  - destruct (restart_one_attempts service t) as (t1 & E1 & R1).
    destruct (IH t1) as (t2 & E2 & R2).
    exists t2. split.
    + cbn [for_each]. monad. rewrite E1. exact E2.
    + rewrite R2, R1, <- app_assoc. reflexivity.
Qed.

Lemma restart_services_list (self : DeployKit) (services : list value) (t : trace) :
  py_get (config self) "services" (VList []) = Ok (VList services) ->
  exists t',
    restart_services W self t = (Ok VNone, t') /\
    runs t' = (runs t ++ map restart_command services)%list.
Proof.
  intros H. unfold restart_services. monad. rewrite H.
  destruct services as [|s rest].
  - simpl. eexists. split; [reflexivity|]. runs_simpl. rewrite app_nil_r. reflexivity.
  - cbn [truthy negb py_iter].
    destruct (for_each_restart_one (s :: rest)
                (t ++ [Log INFO "Restarting services..."])%list) as (t' & E & R).
    exists t'. rewrite E. split; [reflexivity|].
    rewrite R. runs_simpl. reflexivity.
Qed.

(** C2. For every configured list of services, restart returns normally
    and the child processes it has run are exactly the restart commands
    of the services, each of them, in the order of the list, whatever
    the outcome of each restart. *)
Theorem restart_attempts_every_service (self : DeployKit)
    (services : list value) (t : trace) :
  py_get (config self) "services" (VList []) = Ok (VList services) ->
  exists t',
    restart_services W self t = (Ok VNone, t') /\
    runs t' = (runs t ++ map restart_command services)%list.
Proof. apply restart_services_list. Qed.

(** ** status *)

Lemma get_status_dict (self : DeployKit) (d : list (string * value)) (t : trace) :
  config self = VDict d ->
  get_status W self t =
    (Ok (VDict [("environment", get_or d "environment" VNone);
                ("timestamp", VStr (isoformat (now W)));
                ("config", config self);
                ("services", get_or d "services" (VList []))]),
     t).
Proof. intros Hd. unfold get_status. monad. rewrite Hd. reflexivity. Qed.

(** C8. On a constructed [DeployKit], status returns a record with the
    keys environment, timestamp, config and services, where config is the
    loaded configuration and services its service list, and leaves the
    trace as it was: nothing is printed, logged or run. *)
Theorem get_status_snapshot (t0 t1 : trace) (self : DeployKit) (t : trace) :
  DeployKit_init W t0 = (Ok self, t1) ->
  exists d,
    config self = VDict d /\
    get_status W self t =
      (Ok (VDict [("environment", get_or d "environment" VNone);
                  ("timestamp", VStr (isoformat (now W)));
                  ("config", config self);
                  ("services", get_or d "services" (VList []))]),
       t).
Proof.
  intros H. destruct (init_config_is_dict _ _ _ H) as [d Hd].
  exists d. split; [exact Hd|]. apply get_status_dict. exact Hd.
Qed.

(** ** backup *)

(** With backups enabled, backup runs one command: the recursive copy of
    the deployment path to the resolved destination. *)
Lemma backup_enabled (self : DeployKit) (d : list (string * value))
    (backup_path : option string) (t : trace) :
  config self = VDict d ->
  truthy (get_or d "backupEnabled" (VBool true)) = true ->
  let deployment_path := get_or d "deploymentPath" (VStr "/var/www/html") in
  let dest := resolve_backup_path W backup_path deployment_path in
  let argv := [VStr "cp"; VStr "-r"; deployment_path; VStr dest] in
  runs (snd (backup_deployment W self backup_path t)) = (runs t ++ [argv])%list /\
  (forall out err,
      child W (runs t) argv = Exited 0 out err ->
      fst (backup_deployment W self backup_path t) =
        Ok (VDict [("success", VBool true); ("backup_path", VStr dest)])) /\
  (forall e,
      fst (subprocess_run W argv
             (t ++ [Log INFO ("Creating backup: " ++ fmt deployment_path
                              ++ " -> " ++ dest)])%list) = Raise e ->
      fst (backup_deployment W self backup_path t) =
        Ok (VDict [("success", VBool false); ("error", VStr (exn_str e))])).
Proof.
  intros Hd Hen dp dest argv.
  unfold backup_deployment. monad. rewrite Hd. cbn [py_get]. rewrite Hen.
  cbn [negb]. fold dp. fold dest. fold argv.
  unfold subprocess_run. runs_simpl.
  destruct (child W (runs t) argv) as [rc out err|cls msg].
  - destruct (Z.eqb_spec rc 0) as [->|Hrc]; simpl; runs_simpl;
      repeat split; intros; try congruence.
    match goal with H : Raise _ = Raise _ |- _ => injection H as <- end.
    reflexivity.
  - simpl. runs_simpl. repeat split; intros; try congruence.
    match goal with H : Raise _ = Raise _ |- _ => injection H as <- end.
    reflexivity.
Qed.

(** C3. With [backupEnabled] set to false, backup returns exactly
    [{success: False, reason: "Backup disabled"}] for every supplied or
    absent destination; it only logs one line, and runs no child
    process. *)
Theorem backup_disabled_no_copy (self : DeployKit) (d : list (string * value))
    (backup_path : option string) (t : trace) :
  config self = VDict d ->
  lookup "backupEnabled" d = Some (VBool false) ->
  backup_deployment W self backup_path t =
    (Ok (VDict [("success", VBool false); ("reason", VStr "Backup disabled")]),
     (t ++ [Log INFO "Backup is disabled in configuration"])%list) /\
  runs (snd (backup_deployment W self backup_path t)) = runs t.
Proof.
  intros Hd Hoff.
  assert (E : backup_deployment W self backup_path t =
    (Ok (VDict [("success", VBool false); ("reason", VStr "Backup disabled")]),
     (t ++ [Log INFO "Backup is disabled in configuration"])%list)).
  { unfold backup_deployment. monad. rewrite Hd. cbn [py_get].
    unfold get_or. rewrite Hoff. reflexivity. }
  split; [exact E|]. rewrite E. simpl. apply runs_log.
Qed.

(** C6. With backups enabled and no path supplied, the destination of the
    copy, and the [backup_path] of a successful result, is the configured
    deployment path (the default [/var/www/html] when none is configured)
    followed by [_backup_] and the current time as YYYYMMDD_HHMMSS. *)
Theorem backup_default_destination (self : DeployKit)
    (d : list (string * value)) (t : trace) :
  config self = VDict d ->
  truthy (get_or d "backupEnabled" (VBool true)) = true ->
  valid_datetime (now W) ->
  exists stamp,
    is_YYYYMMDD_HHMMSS (now W) stamp /\
    runs (snd (backup_deployment W self None t)) =
      (runs t ++
       [[VStr "cp"; VStr "-r"; get_or d "deploymentPath" (VStr "/var/www/html");
         VStr (fmt (get_or d "deploymentPath" (VStr "/var/www/html"))
               ++ "_backup_" ++ stamp)]])%list /\
    (forall out err,
        child W (runs t)
          [VStr "cp"; VStr "-r"; get_or d "deploymentPath" (VStr "/var/www/html");
           VStr (fmt (get_or d "deploymentPath" (VStr "/var/www/html"))
                 ++ "_backup_" ++ stamp)] = Exited 0 out err ->
        fst (backup_deployment W self None t) =
          Ok (VDict [("success", VBool true);
                     ("backup_path",
                      VStr (fmt (get_or d "deploymentPath" (VStr "/var/www/html"))
                            ++ "_backup_" ++ stamp))])).
Proof.
  intros Hd Hen Hnow.
  exists (strftime_Ymd_HMS (now W)).
  split; [apply strftime_is_YYYYMMDD_HHMMSS; exact Hnow|].
  destruct (backup_enabled self d None t Hd Hen) as (R & S & _).
  split; [exact R | exact S].
Qed.

(** C10. With backups enabled, an empty string supplied as the path is
    treated as no path: backup behaves exactly as it does without a path,
    and the destination of the copy is the derived, time-stamped path,
    which is not the empty string. *)
Theorem backup_empty_path_is_derived (self : DeployKit)
    (d : list (string * value)) (t : trace) :
  config self = VDict d ->
  truthy (get_or d "backupEnabled" (VBool true)) = true ->
  backup_deployment W self (Some "") t = backup_deployment W self None t /\
  runs (snd (backup_deployment W self (Some "") t)) =
    (runs t ++
     [[VStr "cp"; VStr "-r"; get_or d "deploymentPath" (VStr "/var/www/html");
       VStr (fmt (get_or d "deploymentPath" (VStr "/var/www/html"))
             ++ "_backup_" ++ strftime_Ymd_HMS (now W))]])%list /\
  fmt (get_or d "deploymentPath" (VStr "/var/www/html"))
    ++ "_backup_" ++ strftime_Ymd_HMS (now W) <> "".
Proof.
  intros Hd Hen. split; [reflexivity|]. split.
  - exact (proj1 (backup_enabled self d (Some "") t Hd Hen)).
  - intros E. apply (f_equal String.length) in E.
    rewrite length_append in E. simpl in E. lia.
Qed.

(** ** Results *)

(** A dict literal with a boolean [success] that, when true, has neither
    [error] nor [exit_code]. *)
Ltac result_record :=
  eexists; split; [reflexivity|]; split;
  [ do 2 eexists; split; reflexivity
  | let d' := fresh "d" in let E := fresh "E" in
    intros d' E; injection E as <-; simpl; intros;
    first [discriminate | split; reflexivity] ].

Lemma execute_deployment_result (self : DeployKit) (script_name : string) (t : trace) :
  exists v, fst (execute_deployment W self script_name t) = Ok v /\
            action_result v /\ unambiguous v.
Proof.
  unfold execute_deployment, subprocess_run. monad.
  destruct (path_exists W _) as [[|]|e]; simpl.
  - destruct (child W _ _) as [rc out err|cls msg].
    + destruct (rc =? 0)%Z; simpl; result_record.
    + simpl. result_record.
  - result_record.
  - destruct e; simpl; result_record.
Qed.

Lemma backup_deployment_result (self : DeployKit) (d : list (string * value))
    (backup_path : option string) (t : trace) :
  config self = VDict d ->
  exists v, fst (backup_deployment W self backup_path t) = Ok v /\
            action_result v /\ unambiguous v.
Proof.
  intros Hd. unfold backup_deployment, subprocess_run. monad.
  rewrite Hd. cbn [py_get].
  destruct (truthy (get_or d "backupEnabled" (VBool true))); cbn [negb].
  - destruct (child W _ _) as [rc out err|cls msg].
    + destruct (rc =? 0)%Z; simpl; result_record.
    + simpl. result_record.
  - result_record.
Qed.

(** C7, as amended. Deploy and backup always produce a result record: a
    dict with a boolean [success] in which, whenever [success] is true,
    [error] and [exit_code] are absent.  Status produces a snapshot that
    has no [success] field, and restart, over a list of services, returns
    [None]. *)
Theorem results_unambiguous (self : DeployKit) (d : list (string * value))
    (t : trace) :
  config self = VDict d ->
  (forall script_name, exists v,
      fst (perform W self (Deploy script_name) t) = Ok v /\
      action_result v /\ unambiguous v) /\
  (forall backup_path, exists v,
      fst (perform W self (Backup backup_path) t) = Ok v /\
      action_result v /\ unambiguous v) /\
  (exists snapshot,
      fst (perform W self Status t) = Ok (VDict snapshot) /\
      lookup "success" snapshot = None) /\
  (forall services,
      get_or d "services" (VList []) = VList services ->
      fst (perform W self Restart t) = Ok VNone).
Proof.
  intros Hd. repeat apply conj.
  - intros script_name. apply execute_deployment_result.
  - intros backup_path. apply (backup_deployment_result _ _ _ _ Hd).
  - eexists. simpl. rewrite (get_status_dict _ _ _ Hd). split; reflexivity.
  - intros services Hs. simpl.
    destruct (restart_services_list self services t) as (t' & E & _).
    + rewrite Hd. simpl. rewrite Hs. reflexivity.
    + rewrite E. reflexivity.
Qed.

(** ** The command line *)

Lemma exit_unless_success_bool (r : list (string * value)) (b : bool) (t : trace) :
  lookup "success" r = Some (VBool b) ->
  exit_unless_success (VDict r) t = (Ok (if b then Returns else SysExit 1), t).
Proof.
  intros H. unfold exit_unless_success. monad. simpl. rewrite H.
  destruct b; reflexivity.
Qed.

(** C9, as amended. Once start-up has succeeded: with no argument the
    CLI prints the usage text and exits 0; status exits 0; restart exits 0
    over every list of services, whatever the restarts do; deploy and
    backup exit 1 exactly when the result of the action has success
    false, and 0 otherwise; an unknown subcommand prints an error and
    exits 1. *)
Theorem cli_exit_status (self : DeployKit) (t1 : trace) :
  DeployKit_init W [] = (Ok self, t1) ->
  (forall argv,
      List.length argv < 2 ->
      main W argv [] = (Ok Returns, (t1 ++ [Print usage])%list) /\
      exit_status W argv = 0%Z) /\
  (forall prog rest, exit_status W (prog :: "status" :: rest) = 0%Z) /\
  (forall prog rest services,
      py_get (config self) "services" (VList []) = Ok (VList services) ->
      exit_status W (prog :: "restart" :: rest) = 0%Z) /\
  (forall prog rest, exists r b,
      fst (execute_deployment W self (hd "deploy" rest) t1) = Ok (VDict r) /\
      lookup "success" r = Some (VBool b) /\
      exit_status W (prog :: "deploy" :: rest) = (if b then 0 else 1)%Z) /\
  (forall prog rest, exists r b,
      fst (backup_deployment W self (hd_error rest) t1) = Ok (VDict r) /\
      lookup "success" r = Some (VBool b) /\
      exit_status W (prog :: "backup" :: rest) = (if b then 0 else 1)%Z) /\
  (forall prog command rest,
      command <> "deploy" -> command <> "status" ->
      command <> "restart" -> command <> "backup" ->
      main W (prog :: command :: rest) [] =
        (Ok (SysExit 1), (t1 ++ [Print ("Unknown command: " ++ command)])%list) /\
      exit_status W (prog :: command :: rest) = 1%Z).
Proof.
  intros Hinit.
  destruct (init_config_is_dict _ _ _ Hinit) as [d Hd].
  repeat apply conj.
  - intros argv Hlen.
    assert (E : main W argv [] = (Ok Returns, (t1 ++ [Print usage])%list)).
    { unfold main. monad. rewrite Hinit.
      destruct (Nat.ltb_spec (List.length argv) 2); [reflexivity|lia]. }
    split; [exact E|]. unfold exit_status. rewrite E. reflexivity.
  - intros prog rest. unfold exit_status, main. monad. rewrite Hinit.
    cbn [List.length Nat.ltb Nat.leb nth String.eqb Ascii.eqb Bool.eqb].
    rewrite (get_status_dict _ _ _ Hd). reflexivity.
  - intros prog rest services Hs. unfold exit_status, main. monad. rewrite Hinit.
    cbn [List.length Nat.ltb Nat.leb nth String.eqb Ascii.eqb Bool.eqb].
    destruct (restart_services_list self services t1 Hs) as (t' & E & _).
    rewrite E. reflexivity.
  - intros prog rest.
    destruct (execute_deployment_result self (hd "deploy" rest) t1)
      as (v & E & (r & b & -> & Hb) & _).
    exists r, b. split; [exact E|]. split; [exact Hb|].
    unfold exit_status, main. monad. rewrite Hinit.
    destruct rest as [|script_name rest];
      cbn [List.length Nat.ltb Nat.leb nth String.eqb Ascii.eqb Bool.eqb hd] in *;
      destruct (execute_deployment W self _ t1) as [o t2];
      simpl in E; subst o; cbv beta iota;
      rewrite (exit_unless_success_bool _ _ _ Hb);
      destruct b; reflexivity.
  - intros prog rest.
    destruct (backup_deployment_result self d (hd_error rest) t1 Hd)
      as (v & E & (r & b & -> & Hb) & _).
    exists r, b. split; [exact E|]. split; [exact Hb|].
    unfold exit_status, main. monad. rewrite Hinit.
    destruct rest as [|backup_path rest];
      cbn [List.length Nat.ltb Nat.leb nth String.eqb Ascii.eqb Bool.eqb hd_error] in *;
      destruct (backup_deployment W self _ t1) as [o t2];
      simpl in E; subst o; cbv beta iota;
      rewrite (exit_unless_success_bool _ _ _ Hb);
      destruct b; reflexivity.
  - intros prog command rest Hd' Hs Hr Hb.
    apply String.eqb_neq in Hd', Hs, Hr, Hb.
    assert (E : main W (prog :: command :: rest) [] =
                (Ok (SysExit 1), (t1 ++ [Print ("Unknown command: " ++ command)])%list)).
    { unfold main. monad. rewrite Hinit.
      cbn [List.length Nat.ltb Nat.leb nth].
      rewrite Hd', Hs, Hr, Hb. reflexivity. }
    split; [exact E|]. unfold exit_status. rewrite E. reflexivity.
Qed.

(** When start-up raises, nothing catches it and the process exits 1,
    whatever the arguments. *)
Lemma exit_status_startup_failure (e : exn) (t1 : trace) (argv : list string) :
  DeployKit_init W [] = (Raise e, t1) -> exit_status W argv = 1%Z.
Proof.
  intros H. unfold exit_status, main. monad. rewrite H. reflexivity.
Qed.

End Properties.

(** * The model at work

    The theorems above, applied in concrete environments. *)

(** Without a configuration file the defaults are loaded. *)
Lemma load_config_defaults_witness :
  fst (load_config (T := example_text) (example_world None all_succeed) []) =
    Ok (VDict [("environment", VStr "development");
               ("logLevel", VStr "INFO");
               ("deploymentPath", VStr "/var/www/html");
               ("backupEnabled", VBool true);
               ("services", VList [])]).
Proof.
  apply (load_config_defaults (T := example_text)
           (example_world None all_succeed) []).
  left. reflexivity.
Defined.

(** deploy.sh exits 0 and prints "done"; it exits 2 and writes "boom" to
    standard error; bash cannot be started. *)
Lemma execute_deployment_classifies_witness :
  fst (execute_deployment (T := example_text) (example_world None all_succeed)
         {| config := get_default_config |} "deploy" []) =
    Ok (VDict [("success", VBool true); ("output", VStr "done"); ("stderr", VStr "")]) /\
  fst (execute_deployment (T := example_text) (example_world None all_fail)
         {| config := get_default_config |} "deploy" []) =
    Ok (VDict [("success", VBool false); ("error", VStr "boom"); ("exit_code", VInt 2)]) /\
  fst (execute_deployment (T := example_text) (example_world None no_interpreter)
         {| config := get_default_config |} "deploy" []) =
    Ok (VDict [("success", VBool false);
               ("error", VStr "[Errno 2] No such file or directory: 'bash'")]).
Proof.
  repeat apply conj.
  - apply (proj1 (execute_deployment_classifies (T := example_text)
                    (example_world None all_succeed) _ "deploy" [] eq_refl)).
    reflexivity.
  - apply (proj1 (proj2 (execute_deployment_classifies (T := example_text)
                           (example_world None all_fail) _ "deploy" [] eq_refl))
             2%Z "" "boom").
    + discriminate.
    + reflexivity.
  - apply (proj2 (proj2 (execute_deployment_classifies (T := example_text)
                           (example_world None no_interpreter) _ "deploy" [] eq_refl))
             "FileNotFoundError").
    reflexivity.
Defined.

(** There is no nope.sh: [main.py deploy nope] exits 1. *)
Lemma deploy_missing_script_witness :
  exit_status (T := example_text) (example_world None all_succeed)
    ["main.py"; "deploy"; "nope"] = 1%Z.
Proof.
  apply (proj1 (proj2 (deploy_missing_script (T := example_text)
                         (example_world None all_succeed) "nope" eq_refl))).
Defined.

(** Restarting "a" fails; "b" is restarted all the same. *)
Lemma restart_attempts_every_service_witness :
  exists t',
    restart_services (T := example_text) (example_world (Some two_services) a_fails)
      {| config := two_services |} [] = (Ok VNone, t') /\
    runs t' = [restart_command (VStr "a"); restart_command (VStr "b")].
Proof.
  apply (restart_attempts_every_service (T := example_text)
           (example_world (Some two_services) a_fails)
           {| config := two_services |} [VStr "a"; VStr "b"] []).
  reflexivity.
Defined.

Lemma get_status_snapshot_witness :
  get_status (example_world (Some two_services) all_succeed)
    {| config := two_services |} [] =
    (Ok (VDict [("environment", VStr "production");
                ("timestamp", VStr "2024-03-09T14:05:07");
                ("config", two_services);
                ("services", VList [VStr "a"; VStr "b"])]),
     []).
Proof.
  destruct (get_status_snapshot (T := example_text)
              (example_world (Some two_services) all_succeed)
              [] [BasicConfig 20] {| config := two_services |} [] eq_refl)
    as (d & Hd & E).
  injection Hd as <-. exact E.
Defined.

Lemma backup_disabled_no_copy_witness :
  backup_deployment (T := example_text) (example_world (Some backups_off) all_succeed)
    {| config := backups_off |} (Some "/tmp/copy") [] =
    (Ok (VDict [("success", VBool false); ("reason", VStr "Backup disabled")]),
     [Log INFO "Backup is disabled in configuration"]).
Proof.
  apply (backup_disabled_no_copy (T := example_text)
           (example_world (Some backups_off) all_succeed)
           {| config := backups_off |} _ (Some "/tmp/copy") [] eq_refl eq_refl).
Defined.

Lemma example_now_valid :
  valid_datetime (now (example_world None all_succeed)).
Proof.
  unfold valid_datetime. cbn [now example_world year month day hour minute second microsecond].
  change (10 ^ 4) with (10 * (10 * (10 * 10))).
  change (10 ^ 6) with (10 * (10 * (10 * (10 * (10 * 10))))).
  lia.
Defined.

Lemma backup_default_destination_witness :
  exists stamp,
    is_YYYYMMDD_HHMMSS (now (example_world None all_succeed)) stamp /\
    runs (snd (backup_deployment (T := example_text) (example_world None all_succeed)
                 {| config := get_default_config |} None [])) =
      [[VStr "cp"; VStr "-r"; VStr "/var/www/html";
        VStr ("/var/www/html" ++ "_backup_" ++ stamp)]].
Proof.
  destruct (backup_default_destination (T := example_text)
              (example_world None all_succeed)
              {| config := get_default_config |} _ [] eq_refl eq_refl example_now_valid)
    as (stamp & Hshape & Hruns & _).
  exists stamp. split; [exact Hshape | exact Hruns].
Defined.

Lemma backup_empty_path_is_derived_witness :
  runs (snd (backup_deployment (T := example_text) (example_world None all_succeed)
               {| config := get_default_config |} (Some "") [])) =
    [[VStr "cp"; VStr "-r"; VStr "/var/www/html";
      VStr "/var/www/html_backup_20240309_140507"]].
Proof.
  apply (proj1 (proj2 (backup_empty_path_is_derived (T := example_text)
                         (example_world None all_succeed)
                         {| config := get_default_config |} _ [] eq_refl eq_refl))).
Defined.

(** C7 as stated does not hold: restart and status are two of the four
    actions, and on a constructed [DeployKit] with two services restart
    returns [None] and status returns its snapshot; neither is a result
    record. *)
Lemma restart_returns_no_record :
  DeployKit_init (T := example_text) (example_world (Some two_services) a_fails) [] =
    (Ok {| config := two_services |}, [BasicConfig 20]) /\
  fst (perform (T := example_text) (example_world (Some two_services) a_fails)
         {| config := two_services |} Restart [BasicConfig 20]) = Ok VNone /\
  ~ action_result VNone /\
  fst (perform (T := example_text) (example_world (Some two_services) a_fails)
         {| config := two_services |} Status [BasicConfig 20]) =
    Ok (VDict [("environment", VStr "production");
               ("timestamp", VStr "2024-03-09T14:05:07");
               ("config", two_services);
               ("services", VList [VStr "a"; VStr "b"])]) /\
  ~ action_result (VDict [("environment", VStr "production");
                          ("timestamp", VStr "2024-03-09T14:05:07");
                          ("config", two_services);
                          ("services", VList [VStr "a"; VStr "b"])]) /\
  ~ (forall (T : PyText) (W : World) (self : DeployKit) (t0 t1 : trace) (a : action),
        DeployKit_init W t0 = (Ok self, t1) ->
        exists v, fst (perform W self a t1) = Ok v /\
                  action_result v /\ unambiguous v).
Proof.
  assert (N : ~ action_result VNone).
  { intros (d & b & E & _). discriminate E. }
  repeat apply conj; try reflexivity; [exact N| |].
  { intros (d & b & E & L). injection E as <-. discriminate L. }
  intros H.
  destruct (H example_text (example_world (Some two_services) a_fails)
              {| config := two_services |} [] [BasicConfig 20] Restart eq_refl)
    as (v & E & R & _).
  vm_compute in E. injection E as <-. exact (N R).
Qed.

Lemma results_unambiguous_witness :
  (exists v,
      fst (perform (T := example_text) (example_world (Some two_services) a_fails)
             {| config := two_services |} (Deploy "deploy") []) = Ok v /\
      action_result v /\ unambiguous v) /\
  fst (perform (T := example_text) (example_world (Some two_services) a_fails)
         {| config := two_services |} Restart []) = Ok VNone.
Proof.
  destruct (results_unambiguous (T := example_text)
              (example_world (Some two_services) a_fails)
              {| config := two_services |} _ [] eq_refl) as (D & _ & _ & R).
  split; [apply D | apply (R [VStr "a"; VStr "b"]); reflexivity].
Defined.

(** C9 as stated does not hold: with a configuration whose logLevel is
    not a level of the logging module, start-up raises before the
    subcommand is looked at, and [main.py status] exits 1; with a
    services value that cannot be iterated, so does [main.py restart]. *)
Lemma status_exits_1_on_unknown_log_level :
  main (T := example_text)
    (example_world (Some (VDict [("logLevel", VStr "verbose")])) all_succeed)
    ["main.py"; "status"] [] =
    (Raise (Exception "AttributeError" "module 'logging' has no attribute 'VERBOSE'"),
     []) /\
  exit_status (T := example_text)
    (example_world (Some (VDict [("logLevel", VStr "verbose")])) all_succeed)
    ["main.py"; "status"] = 1%Z /\
  exit_status (T := example_text)
    (example_world (Some (VDict [("services", VInt 5)])) all_succeed)
    ["main.py"; "restart"] = 1%Z.
Proof. repeat apply conj; reflexivity. Qed.

Lemma cli_exit_status_witness :
  exit_status (T := example_text) (example_world (Some two_services) a_fails)
    ["main.py"] = 0%Z /\
  exit_status (T := example_text) (example_world (Some two_services) a_fails)
    ["main.py"; "status"] = 0%Z /\
  exit_status (T := example_text) (example_world (Some two_services) a_fails)
    ["main.py"; "restart"] = 0%Z /\
  exit_status (T := example_text) (example_world (Some two_services) a_fails)
    ["main.py"; "frobnicate"] = 1%Z.
Proof.
  destruct (cli_exit_status (T := example_text)
              (example_world (Some two_services) a_fails)
              {| config := two_services |} [BasicConfig 20] eq_refl)
    as (U & S & R & _ & _ & X).
  repeat apply conj.
  - apply U. simpl. lia.
  - apply S.
  - apply (R _ _ [VStr "a"; VStr "b"]). reflexivity.
  - apply X; discriminate.
Defined.

(** * Further properties of the program *)

Section Further.

Context {T : PyText} (W : World).

(** ** Start-up: [__init__], [load_config], [setup_logging] *)

Lemma runs_print (t : trace) (text : string) :
  runs (t ++ [Print text])%list = runs t.
Proof. rewrite runs_app; simpl; apply app_nil_r. Qed.

Lemma runs_basic_config (t : trace) (lvl : Z) :
  runs (t ++ [BasicConfig lvl])%list = runs t.
Proof. rewrite runs_app; simpl; apply app_nil_r. Qed.

(** What [load_config] does, case by case. *)
Lemma load_config_cases (t : trace) :
  exists cfg t',
    load_config W t = (Ok cfg, t') /\
    ((path_exists W (config_path W) = Ok true /\
      open_json_load W (config_path W) = Ok cfg /\ t' = t) \/
     (cfg = get_default_config /\ exists line, t' = (t ++ [Print line])%list)).
Proof.
  unfold load_config. monad.
  destruct (path_exists W (config_path W)) as [[|]|e] eqn:Hex.
  - destruct (open_json_load W (config_path W)) as [v|e] eqn:Hload;
      do 2 eexists; (split; [reflexivity|]).
    + left. auto.
    + right. split; [reflexivity|]. eauto.
  - do 2 eexists. split; [reflexivity|]. right. split; [reflexivity|]. eauto.
  - do 2 eexists. split; [reflexivity|]. right. split; [reflexivity|]. eauto.
Qed.

Lemma load_config_runs (t : trace) : runs (snd (load_config W t)) = runs t.
Proof.
  destruct (load_config_cases t) as (cfg & t' & E & [(_ & _ & ->)|(_ & line & ->)]);
    rewrite E; simpl; [reflexivity | apply runs_print].
Qed.

Lemma setup_logging_runs (cfg : value) (t : trace) :
  runs (snd (setup_logging cfg t)) = runs t.
Proof.
  unfold setup_logging. monad.
  destruct (py_get cfg "logLevel" (VStr "INFO")) as [name|e]; [|reflexivity].
  destruct (py_upper name) as [up|e]; [|reflexivity].
  destruct (logging_level up); [apply runs_basic_config | reflexivity].
Qed.

(** Start-up runs no child process, whether it succeeds or raises. *)
Lemma init_runs (t : trace) : runs (snd (DeployKit_init W t)) = runs t.
Proof.
  unfold DeployKit_init. monad.
  pose proof (load_config_runs t) as L.
  destruct (load_config W t) as [[cfg|e] t1]; simpl in L; [|exact L].
  pose proof (setup_logging_runs cfg t1) as S.
  destruct (setup_logging cfg t1) as [[[]|e] t2]; simpl in S |- *; congruence.
Qed.



(** X3. When the construction of the [DeployKit] raises, [main] raises
    the same exception whatever the arguments: no usage text, no action,
    no child process, and the process exits with status 1. *)
Theorem startup_failure_is_fatal (e : exn) (t1 : trace) (argv : list string) :
  DeployKit_init W [] = (Raise e, t1) ->
  main W argv [] = (Raise e, t1) /\
  runs t1 = [] /\
  exit_status W argv = 1%Z.
Proof.
  intros H.
  assert (E : main W argv [] = (Raise e, t1)).
  { unfold main. monad. rewrite H. reflexivity. }
  split; [exact E|]. split.
  - pose proof (init_runs []) as R. rewrite H in R. exact R.
  - unfold exit_status. rewrite E. reflexivity.
Qed.

(** X4. A configuration file that loads to anything but a dict (a list, a
    string, a number, null) stops every invocation at start-up with an
    AttributeError, before anything is printed. *)
Theorem non_dict_config_aborts (v : value) (argv : list string) :
  path_exists W (config_path W) = Ok true ->
  open_json_load W (config_path W) = Ok v ->
  (forall d, v <> VDict d) ->
  main W argv [] =
    (Raise (Exception "AttributeError"
              ("'" ++ type_name v ++ "' object has no attribute 'get'")), []) /\
  exit_status W argv = 1%Z.
Proof.
  intros Hex Hload Hnd.
  assert (E : main W argv [] =
    (Raise (Exception "AttributeError"
              ("'" ++ type_name v ++ "' object has no attribute 'get'")), [])).
  { unfold main, DeployKit_init, load_config, setup_logging. monad.
    rewrite Hex, Hload.
    destruct v; try reflexivity. exfalso. eapply Hnd. reflexivity. }
  split; [exact E|]. unfold exit_status. rewrite E. reflexivity.
Qed.

(** ** deploy: [execute_deployment] *)

(** X5. Deploy never lets an exception out, and the only child process
    it ever runs is [bash] on the resolved script path: exactly once when
    the script exists, not at all when it does not or when the check
    itself raises. *)
Theorem execute_deployment_contained (self : DeployKit) (script_name : string)
    (t : trace) :
  exists v t',
    execute_deployment W self script_name t = (Ok v, t') /\
    ((path_exists W (script_file W (script_name ++ ".sh")) = Ok true /\
      runs t' = (runs t ++
                 [[VStr "bash"; VStr (script_file W (script_name ++ ".sh"))]])%list) \/
     (path_exists W (script_file W (script_name ++ ".sh")) <> Ok true /\
      runs t' = runs t)).
Proof.
  unfold execute_deployment, subprocess_run. monad.
  destruct (path_exists W _) as [[|]|e]; simpl.
  - destruct (child W _ _) as [rc out err|cls msg];
      [destruct (rc =? 0)%Z|]; simpl;
      do 2 eexists; (split; [reflexivity|]); left;
      (split; [reflexivity|]); runs_simpl; reflexivity.
  - do 2 eexists. split; [reflexivity|]. right.
    split; [discriminate|]. runs_simpl. reflexivity.
  - destruct e; simpl; do 2 eexists; (split; [reflexivity|]); right;
      (split; [discriminate|]); runs_simpl; reflexivity.
Qed.

Lemma execute_deployment_success (self : DeployKit) (script_name : string)
    (t : trace) :
  (exists d,
      fst (execute_deployment W self script_name t) = Ok (VDict d) /\
      lookup "success" d = Some (VBool true)) <->
  (path_exists W (script_file W (script_name ++ ".sh")) = Ok true /\
   exists out err,
     child W (runs t) [VStr "bash"; VStr (script_file W (script_name ++ ".sh"))]
       = Exited 0 out err).
Proof.
  unfold execute_deployment, subprocess_run. monad.
  destruct (path_exists W _) as [[|]|e]; simpl; runs_simpl.
  - destruct (child W _ _) as [rc out err|cls msg].
    + destruct (Z.eqb_spec rc 0) as [->|Hrc]; simpl.
      * split; [eauto|]. intros _. eexists. split; reflexivity.
      * split.
        -- intros (d & E & L). injection E as <-. discriminate L.
        -- intros (_ & out' & err' & E). congruence.
    + simpl. split.
      * intros (d & E & L). injection E as <-. discriminate L.
      * intros (_ & out' & err' & E). discriminate E.
  - split.
    + intros (d & E & L). injection E as <-. discriminate L.
    + intros (E & _). discriminate E.
  - split.
    + destruct e; simpl; intros (d & E & L); injection E as <-; discriminate L.
    + intros (E & _). discriminate E.
Qed.

(** X6. The result of deploy has success true exactly when the script
    exists and the child process exits with code 0. *)
Theorem deploy_succeeds_iff (self : DeployKit) (script_name : string) (t : trace) :
  (exists d,
      fst (execute_deployment W self script_name t) = Ok (VDict d) /\
      lookup "success" d = Some (VBool true)) <->
  (path_exists W (script_file W (script_name ++ ".sh")) = Ok true /\
   exists out err,
     child W (runs t) [VStr "bash"; VStr (script_file W (script_name ++ ".sh"))]
       = Exited 0 out err).
Proof. apply execute_deployment_success. Qed.

(** ** restart: [restart_services] *)

(** X7. When no services are configured (the key is missing, or its value
    is an empty list or any other false value), restart logs a warning,
    runs no child process and returns [None]. *)
Theorem restart_nothing_configured (self : DeployKit) (services : value)
    (t : trace) :
  py_get (config self) "services" (VList []) = Ok services ->
  truthy services = false ->
  restart_services W self t =
    (Ok VNone,
     (t ++ [Log INFO "Restarting services...";
            Log WARNING "No services configured for restart"])%list).
Proof.
  intros H Hf. unfold restart_services. monad. rewrite H, Hf. simpl.
  rewrite <- app_assoc. reflexivity.
Qed.

(** X8. When the configured services value is true but cannot be iterated
    (a non-zero number, [true]), restart raises the TypeError of the
    [for] statement before any child process is run, and [main.py
    restart] exits with status 1. *)
Theorem restart_not_iterable (self : DeployKit) (t1 : trace)
    (services : value) (e : exn) (prog : string) (rest : list string) :
  DeployKit_init W [] = (Ok self, t1) ->
  py_get (config self) "services" (VList []) = Ok services ->
  truthy services = true ->
  py_iter services = Raise e ->
  restart_services W self t1 =
    (Raise e, (t1 ++ [Log INFO "Restarting services..."])%list) /\
  exit_status W (prog :: "restart" :: rest) = 1%Z.
Proof.
  intros Hinit H Ht Hi.
  assert (E : restart_services W self t1 =
                (Raise e, (t1 ++ [Log INFO "Restarting services..."])%list)).
  { unfold restart_services. monad. rewrite H, Ht, Hi. reflexivity. }
  split; [exact E|].
  unfold exit_status, main. monad. rewrite Hinit.
  cbn [List.length Nat.ltb Nat.leb nth String.eqb Ascii.eqb Bool.eqb].
  rewrite E. reflexivity.
Qed.

(** X9. When the configured services value is a non-empty string instead
    of a list, restart takes each character of the string for a service
    name and restarts them one by one.  (Stated for ASCII text, where the
    characters of the Python string are the bytes of the model's.) *)
Theorem restart_string_by_character (self : DeployKit) (name : string)
    (t : trace) :
  py_get (config self) "services" (VList []) = Ok (VStr name) ->
  name <> "" ->
  ascii_only name = true ->
  exists t',
    restart_services W self t = (Ok VNone, t') /\
    runs t' = (runs t ++ map restart_command (chars name))%list /\
    List.length (chars name) = String.length name.
Proof.
  intros H Hne _.
  assert (Ht : truthy (VStr name) = true).
  { simpl. destruct name; [contradiction|reflexivity]. }
  unfold restart_services. monad. rewrite H, Ht. cbn [negb py_iter].
  destruct (for_each_restart_one W (chars name)
              (t ++ [Log INFO "Restarting services..."])%list) as (t' & E & R).
  exists t'. rewrite E. split; [reflexivity|]. split.
  - rewrite R. runs_simpl. reflexivity.
  - clear. induction name as [|c name IH]; simpl; [reflexivity|].
    rewrite IH. reflexivity.
Qed.

(** ** backup: [backup_deployment] *)

Lemma app_one_neq {A} (l : list A) (x : A) : (l ++ [x])%list <> l.
Proof.
  intros E. apply (f_equal (@List.length A)) in E.
  rewrite length_app in E. simpl in E. lia.
Qed.

(** X10. With backups enabled and a non-empty path supplied, the copy
    goes to exactly that path, whatever the time, and a successful result
    carries it as [backup_path]. *)
Theorem backup_explicit_path (self : DeployKit) (d : list (string * value))
    (path : string) (t : trace) :
  config self = VDict d ->
  truthy (get_or d "backupEnabled" (VBool true)) = true ->
  path <> "" ->
  runs (snd (backup_deployment W self (Some path) t)) =
    (runs t ++
     [[VStr "cp"; VStr "-r"; get_or d "deploymentPath" (VStr "/var/www/html");
       VStr path]])%list /\
  (forall out err,
      child W (runs t)
        [VStr "cp"; VStr "-r"; get_or d "deploymentPath" (VStr "/var/www/html");
         VStr path] = Exited 0 out err ->
      fst (backup_deployment W self (Some path) t) =
        Ok (VDict [("success", VBool true); ("backup_path", VStr path)])).
Proof.
  intros Hd Hen Hne.
  destruct (backup_enabled W self d (Some path) t Hd Hen) as (R & S & _).
  assert (P : resolve_backup_path W (Some path)
                (get_or d "deploymentPath" (VStr "/var/www/html")) = path).
  { unfold resolve_backup_path. apply String.eqb_neq in Hne. rewrite Hne.
    reflexivity. }
  rewrite P in R, S. split; [exact R | exact S].
Qed.

(** X11. When the copy exits with a non-zero code, backup returns
    [{success: False, error: str(e)}] for the [CalledProcessError]: the
    result has no [exit_code], and what [cp] wrote to standard error is
    not in it. *)
Theorem backup_copy_failure (self : DeployKit) (d : list (string * value))
    (backup_path : option string) (t : trace) (n : Z) (out err : string) :
  config self = VDict d ->
  truthy (get_or d "backupEnabled" (VBool true)) = true ->
  n <> 0%Z ->
  child W (runs t)
    [VStr "cp"; VStr "-r"; get_or d "deploymentPath" (VStr "/var/www/html");
     VStr (resolve_backup_path W backup_path
             (get_or d "deploymentPath" (VStr "/var/www/html")))]
    = Exited n out err ->
  fst (backup_deployment W self backup_path t) =
    Ok (VDict [("success", VBool false);
               ("error",
                VStr (called_process_error_str
                        [VStr "cp"; VStr "-r";
                         get_or d "deploymentPath" (VStr "/var/www/html");
                         VStr (resolve_backup_path W backup_path
                                 (get_or d "deploymentPath" (VStr "/var/www/html")))]
                        n))]).
Proof.
  intros Hd Hen Hn Hc.
  destruct (backup_enabled W self d backup_path t Hd Hen) as (_ & _ & F).
  cbv zeta in F.
  match type of F with
  | forall e, fst (subprocess_run W ?argv ?t0) = _ -> _ =>
      assert (R : fst (subprocess_run W argv t0) =
                    Raise (CalledProcessError n argv out err))
  end.
  { unfold subprocess_run. runs_simpl. rewrite Hc.
    destruct (Z.eqb_spec n 0); [contradiction|reflexivity]. }
  rewrite (F _ R). reflexivity.
Qed.

(** X12. Backup is switched off by every false value of [backupEnabled]
    (false, null, 0, an empty string, list or dict) and by nothing else:
    any other value, the string "false" included, leaves it on.  It
    answers "Backup disabled" exactly when the value is false, and exactly
    then it runs no child process. *)
Theorem backup_disabled_iff_false_value (self : DeployKit)
    (d : list (string * value)) (backup_path : option string) (t : trace) :
  config self = VDict d ->
  (truthy (get_or d "backupEnabled" (VBool true)) = false <->
   fst (backup_deployment W self backup_path t) =
     Ok (VDict [("success", VBool false); ("reason", VStr "Backup disabled")])) /\
  (truthy (get_or d "backupEnabled" (VBool true)) = false <->
   runs (snd (backup_deployment W self backup_path t)) = runs t).
Proof.
  intros Hd.
  destruct (truthy (get_or d "backupEnabled" (VBool true))) eqn:Hen.
  - destruct (backup_enabled W self d backup_path t Hd Hen) as (R & _ & _).
    cbv zeta in R. split; (split; [discriminate|]); intros E; exfalso.
    + revert E. unfold backup_deployment, subprocess_run. monad.
      rewrite Hd. cbn [py_get]. rewrite Hen. cbn [negb].
      destruct (child W _ _) as [rc o e|cls msg];
        [destruct (rc =? 0)%Z|]; simpl; discriminate.
    + rewrite R in E. exact (app_one_neq _ _ E).
  - assert (E : backup_deployment W self backup_path t =
      (Ok (VDict [("success", VBool false); ("reason", VStr "Backup disabled")]),
       (t ++ [Log INFO "Backup is disabled in configuration"])%list)).
    { unfold backup_deployment. monad. rewrite Hd. cbn [py_get].
      rewrite Hen. reflexivity. }
    rewrite E. simpl. runs_simpl. repeat split; reflexivity.
Qed.

(** ** The command line: [main] *)

Ltac enter_main Hinit :=
  unfold main; monad; rewrite Hinit;
  cbn [List.length Nat.ltb Nat.leb nth String.eqb Ascii.eqb Bool.eqb].

Lemma main_deploy (self : DeployKit) (t1 : trace) (prog : string)
    (rest : list string) :
  DeployKit_init W [] = (Ok self, t1) ->
  main W (prog :: "deploy" :: rest) [] =
    bind (execute_deployment W self (hd "deploy" rest)) exit_unless_success t1.
Proof.
  intros Hinit. enter_main Hinit. destruct rest; reflexivity.
Qed.

Lemma main_backup (self : DeployKit) (t1 : trace) (prog : string)
    (rest : list string) :
  DeployKit_init W [] = (Ok self, t1) ->
  main W (prog :: "backup" :: rest) [] =
    bind (backup_deployment W self (hd_error rest)) exit_unless_success t1.
Proof.
  intros Hinit. enter_main Hinit. destruct rest; reflexivity.
Qed.

(** The exit status after an action that returned a result record. *)
Lemma exit_status_of_result (argv : list string) (action : M value)
    (t1 : trace) (r : list (string * value)) (b : bool) :
  main W argv [] = bind action exit_unless_success t1 ->
  fst (action t1) = Ok (VDict r) ->
  lookup "success" r = Some (VBool b) ->
  exit_status W argv = (if b then 0 else 1)%Z.
Proof.
  intros Hm Ha Hb. unfold exit_status. rewrite Hm. unfold bind.
  destruct (action t1) as [o t2]. simpl in Ha. subst o.
  rewrite (exit_unless_success_bool _ _ _ Hb). destruct b; reflexivity.
Qed.


(** X14. The optional argument defaults: [deploy] without a script name
    runs the script named "deploy", and [backup] with an empty path
    behaves as [backup] without a path. *)
Theorem main_argument_defaults (prog : string) (t : trace) :
  main W [prog; "deploy"] t = main W [prog; "deploy"; "deploy"] t /\
  main W [prog; "backup"; ""] t = main W [prog; "backup"] t.
Proof.
  unfold main. monad.
  destruct (DeployKit_init W t) as [[self|e] t1]; split; reflexivity.
Qed.

(** X15. After a successful start-up, [main.py status] prints one thing,
    the snapshot as JSON, runs no child process and returns. *)
Theorem main_status_output (self : DeployKit) (t1 : trace) (prog : string)
    (rest : list string) :
  DeployKit_init W [] = (Ok self, t1) ->
  exists d,
    config self = VDict d /\
    main W (prog :: "status" :: rest) [] =
      (Ok Returns,
       (t1 ++ [PrintJson
                 (VDict [("environment", get_or d "environment" VNone);
                         ("timestamp", VStr (isoformat (now W)));
                         ("config", config self);
                         ("services", get_or d "services" (VList []))])])%list) /\
    runs (snd (main W (prog :: "status" :: rest) [])) = [].
Proof.
  intros Hinit.
  destruct (init_config_is_dict W _ _ _ Hinit) as [d Hd].
  exists d. split; [exact Hd|].
  assert (E : main W (prog :: "status" :: rest) [] =
      (Ok Returns,
       (t1 ++ [PrintJson
                 (VDict [("environment", get_or d "environment" VNone);
                         ("timestamp", VStr (isoformat (now W)));
                         ("config", config self);
                         ("services", get_or d "services" (VList []))])])%list)).
  { enter_main Hinit. rewrite (get_status_dict W _ _ _ Hd). reflexivity. }
  split; [exact E|]. rewrite E. simpl.
  rewrite runs_app. simpl. rewrite app_nil_r.
  pose proof (init_runs []) as R. rewrite Hinit in R. exact R.
Qed.

(** X16. After a successful start-up, [main.py deploy [name]] exits with
    status 0 exactly when the script exists and the child process exits
    with code 0. *)
Theorem deploy_exit_zero_iff (self : DeployKit) (t1 : trace) (prog : string)
    (rest : list string) :
  DeployKit_init W [] = (Ok self, t1) ->
  (exit_status W (prog :: "deploy" :: rest) = 0%Z <->
   path_exists W (script_file W (hd "deploy" rest ++ ".sh")) = Ok true /\
   exists out err,
     child W [] [VStr "bash"; VStr (script_file W (hd "deploy" rest ++ ".sh"))]
       = Exited 0 out err).
Proof.
  intros Hinit.
  pose proof (init_runs []) as R. rewrite Hinit in R. simpl in R.
  destruct (execute_deployment_result W self (hd "deploy" rest) t1)
    as (v & E & (r & b & -> & Hb) & _).
  rewrite (exit_status_of_result _ _ _ _ _ (main_deploy _ _ prog rest Hinit) E Hb).
  rewrite <- R, <- (execute_deployment_success self (hd "deploy" rest) t1).
  rewrite E. split.
  - destruct b; [|discriminate]. intros _. exists r. split; [reflexivity|exact Hb].
  - intros (r' & Er & L). injection Er as <-. rewrite Hb in L.
    injection L as ->. reflexivity.
Qed.

Lemma backup_deployment_success (self : DeployKit) (d : list (string * value))
    (backup_path : option string) (t : trace) :
  config self = VDict d ->
  (exists r,
      fst (backup_deployment W self backup_path t) = Ok (VDict r) /\
      lookup "success" r = Some (VBool true)) <->
  (truthy (get_or d "backupEnabled" (VBool true)) = true /\
   exists out err,
     child W (runs t)
       [VStr "cp"; VStr "-r"; get_or d "deploymentPath" (VStr "/var/www/html");
        VStr (resolve_backup_path W backup_path
                (get_or d "deploymentPath" (VStr "/var/www/html")))]
       = Exited 0 out err).
Proof.
  intros Hd. unfold backup_deployment, subprocess_run. monad.
  rewrite Hd. cbn [py_get].
  destruct (truthy (get_or d "backupEnabled" (VBool true))); cbn [negb].
  - runs_simpl. destruct (child W _ _) as [rc out err|cls msg].
    + destruct (Z.eqb_spec rc 0) as [->|Hrc]; simpl.
      * split; [eauto|]. intros _. eexists. split; reflexivity.
      * split.
        -- intros (r & E & L). injection E as <-. discriminate L.
        -- intros (_ & out' & err' & E). congruence.
    + simpl. split.
      * intros (r & E & L). injection E as <-. discriminate L.
      * intros (_ & out' & err' & E). discriminate E.
  - simpl. split.
    + intros (r & E & L). injection E as <-. discriminate L.
    + intros (E & _). discriminate E.
Qed.

(** X17. After a successful start-up, [main.py backup [path]] exits with
    status 0 exactly when backups are enabled and the copy exits with
    code 0. *)
Theorem backup_exit_zero_iff (self : DeployKit) (d : list (string * value))
    (t1 : trace) (prog : string) (rest : list string) :
  DeployKit_init W [] = (Ok self, t1) ->
  config self = VDict d ->
  (exit_status W (prog :: "backup" :: rest) = 0%Z <->
   truthy (get_or d "backupEnabled" (VBool true)) = true /\
   exists out err,
     child W []
       [VStr "cp"; VStr "-r"; get_or d "deploymentPath" (VStr "/var/www/html");
        VStr (resolve_backup_path W (hd_error rest)
                (get_or d "deploymentPath" (VStr "/var/www/html")))]
       = Exited 0 out err).
Proof.
  intros Hinit Hd.
  pose proof (init_runs []) as R. rewrite Hinit in R. simpl in R.
  destruct (backup_deployment_result W self d (hd_error rest) t1 Hd)
    as (v & E & (r & b & -> & Hb) & _).
  rewrite (exit_status_of_result _ _ _ _ _ (main_backup _ _ prog rest Hinit) E Hb).
  rewrite <- R, <- (backup_deployment_success self d (hd_error rest) t1 Hd).
  rewrite E. split.
  - destruct b; [|discriminate]. intros _. exists r. split; [reflexivity|exact Hb].
  - intros (r' & Er & L). injection Er as <-. rewrite Hb in L.
    injection L as ->. reflexivity.
Qed.

(** ** The name of a derived backup *)

Lemma append_inv_head (a b c : string) : a ++ b = a ++ c -> b = c.
Proof.
  induction a as [|x a IH]; simpl; intros E; [exact E|].
  injection E as E. exact (IH E).
Qed.

Lemma append_eq_split (a a' b b' : string) :
  String.length a = String.length a' ->
  a ++ b = a' ++ b' -> a = a' /\ b = b'.
Proof.
  revert a'. induction a as [|x a IH]; intros [|x' a']; simpl;
    intros L E; try discriminate.
  - auto.
  - injection L as L. injection E as -> E.
    destruct (IH a' L E) as [-> ->]. auto.
Qed.

Lemma pad_inj (w n n' : nat) :
  n < 10 ^ w -> n' < 10 ^ w -> pad w n = pad w n' -> n = n'.
Proof.
  intros H H' E. apply (f_equal (read_digits 0)) in E.
  rewrite !read_digits_pad, !Nat.mod_small in E by assumption.
  injection E as E. exact E.
Qed.

Lemma pad_split (w n n' : nat) (b b' : string) :
  n < 10 ^ w -> n' < 10 ^ w ->
  pad w n ++ b = pad w n' ++ b' -> n = n' /\ b = b'.
Proof.
  intros H H' E.
  destruct (append_eq_split (pad w n) (pad w n') b b') as [P B];
    [rewrite !length_pad; reflexivity | exact E |].
  split; [exact (pad_inj w n n' H H' P) | exact B].
Qed.

(** X18. Two derived backup paths for the same deployment path are equal
    exactly when the two times agree in year, month, day, hour, minute
    and second: backups taken in different seconds never share a
    destination, and two taken within one second always do. *)
Theorem derived_backup_path_by_second (W' : World) (deployment_path : value) :
  valid_datetime (now W) ->
  valid_datetime (now W') ->
  (derived_backup_path W deployment_path = derived_backup_path W' deployment_path <->
   year (now W) = year (now W') /\ month (now W) = month (now W') /\
   day (now W) = day (now W') /\ hour (now W) = hour (now W') /\
   minute (now W) = minute (now W') /\ second (now W) = second (now W')).
Proof.
  intros (Hy & Hmo & Hd & Hh & Hmi & Hs & _) (Hy' & Hmo' & Hd' & Hh' & Hmi' & Hs' & _).
  unfold derived_backup_path, strftime_Ymd_HMS. split.
  - intros E. apply append_inv_head in E.
    apply (append_inv_head "_backup_") in E.
    apply pad_split in E; [|apply Hy|apply Hy']. destruct E as [Ey E].
    apply pad_split in E; [|change (10 ^ 2) with 100; lia ..].
    destruct E as [Emo E].
    apply pad_split in E; [|change (10 ^ 2) with 100; lia ..].
    destruct E as [Ed E].
    apply (append_eq_split "_" "_") in E; [|reflexivity]. destruct E as [_ E].
    apply pad_split in E; [|change (10 ^ 2) with 100; lia ..].
    destruct E as [Eh E].
    apply pad_split in E; [|change (10 ^ 2) with 100; lia ..].
    destruct E as [Emi E].
    apply pad_inj in E; [|change (10 ^ 2) with 100; lia ..].
    auto 10.
  - intros (-> & -> & -> & -> & -> & ->). reflexivity.
Qed.

(** ** The log level *)




End Further.

(** * The further properties at work *)

Lemma startup_failure_is_fatal_witness :
  main (T := example_text) (example_world (Some level_unknown) all_succeed)
    ["main.py"] [] =
    (Raise (Exception "AttributeError" "module 'logging' has no attribute 'VERBOSE'"),
     []).
Proof.
  apply (startup_failure_is_fatal (T := example_text)
           (example_world (Some level_unknown) all_succeed) _ [] ["main.py"] eq_refl).
Defined.

Lemma non_dict_config_aborts_witness :
  exit_status (T := example_text) (example_world (Some not_a_dict) all_succeed)
    ["main.py"; "status"] = 1%Z.
Proof.
  apply (non_dict_config_aborts (T := example_text)
           (example_world (Some not_a_dict) all_succeed) not_a_dict
           ["main.py"; "status"] eq_refl eq_refl).
  intros d E. discriminate E.
Defined.

Lemma restart_nothing_configured_witness :
  restart_services (T := example_text) (example_world None all_succeed)
    {| config := get_default_config |} [] =
    (Ok VNone,
     [Log INFO "Restarting services...";
      Log WARNING "No services configured for restart"]).
Proof.
  apply (restart_nothing_configured (T := example_text)
           (example_world None all_succeed)
           {| config := get_default_config |} (VList []) [] eq_refl eq_refl).
Defined.

Lemma restart_not_iterable_witness :
  exit_status (T := example_text)
    (example_world (Some services_as_number) all_succeed)
    ["main.py"; "restart"] = 1%Z.
Proof.
  apply (restart_not_iterable (T := example_text)
           (example_world (Some services_as_number) all_succeed)
           {| config := services_as_number |} [BasicConfig 20] (VInt 5)
           (Exception "TypeError" "'int' object is not iterable")
           "main.py" [] eq_refl eq_refl eq_refl eq_refl).
Defined.

(** "services": "db" restarts a service "d" and a service "b". *)
Lemma restart_string_by_character_witness :
  exists t',
    restart_services (T := example_text)
      (example_world (Some services_as_text) all_succeed)
      {| config := services_as_text |} [] = (Ok VNone, t') /\
    runs t' = [restart_command (VStr "d"); restart_command (VStr "b")].
Proof.
  destruct (restart_string_by_character (T := example_text)
              (example_world (Some services_as_text) all_succeed)
              {| config := services_as_text |} "db" [] eq_refl)
    as (t' & E & R & _).
  - discriminate.
  - reflexivity.
  - exists t'. split; [exact E | exact R].
Defined.

Lemma backup_explicit_path_witness :
  runs (snd (backup_deployment (T := example_text) (example_world None all_succeed)
               {| config := get_default_config |} (Some "/tmp/copy") [])) =
    [[VStr "cp"; VStr "-r"; VStr "/var/www/html"; VStr "/tmp/copy"]].
Proof.
  apply (backup_explicit_path (T := example_text) (example_world None all_succeed)
           {| config := get_default_config |} _ "/tmp/copy" [] eq_refl eq_refl).
  discriminate.
Defined.

Lemma backup_copy_failure_witness :
  fst (backup_deployment (T := example_text) (example_world None all_fail)
         {| config := get_default_config |} (Some "/tmp/copy") []) =
    Ok (VDict [("success", VBool false);
               ("error",
                VStr "Command '['cp', '-r', '/var/www/html', '/tmp/copy']' returned non-zero exit status 2.")]).
Proof.
  apply (backup_copy_failure (T := example_text) (example_world None all_fail)
           {| config := get_default_config |} _ (Some "/tmp/copy") [] 2%Z "" "boom"
           eq_refl eq_refl).
  - discriminate.
  - reflexivity.
Defined.

(** "backupEnabled": "false" does not switch backups off. *)
Lemma backup_disabled_iff_false_value_witness :
  runs (snd (backup_deployment (T := example_text)
               (example_world (Some backups_off_as_text) all_succeed)
               {| config := backups_off_as_text |} (Some "/tmp/copy") [])) <> [].
Proof.
  intros E.
  apply (proj2 (backup_disabled_iff_false_value (T := example_text)
                  (example_world (Some backups_off_as_text) all_succeed)
                  {| config := backups_off_as_text |} _ (Some "/tmp/copy") []
                  eq_refl)) in E.
  discriminate E.
Defined.

Lemma main_status_output_witness :
  main (T := example_text) (example_world (Some two_services) all_succeed)
    ["main.py"; "status"] [] =
    (Ok Returns,
     [BasicConfig 20;
      PrintJson (VDict [("environment", VStr "production");
                        ("timestamp", VStr "2024-03-09T14:05:07");
                        ("config", two_services);
                        ("services", VList [VStr "a"; VStr "b"])])]).
Proof.
  destruct (main_status_output (T := example_text)
              (example_world (Some two_services) all_succeed)
              {| config := two_services |} [BasicConfig 20] "main.py" [] eq_refl)
    as (d & Hd & E & _).
  injection Hd as <-. exact E.
Defined.

Lemma deploy_exit_zero_iff_witness :
  exit_status (T := example_text) (example_world None all_succeed)
    ["main.py"; "deploy"] = 0%Z /\
  exit_status (T := example_text) (example_world None all_succeed)
    ["main.py"; "deploy"; "nope"] <> 0%Z.
Proof.
  split.
  - apply (deploy_exit_zero_iff (T := example_text) (example_world None all_succeed)
             {| config := get_default_config |} _ "main.py" [] eq_refl).
    split; [reflexivity|]. exists "done", "". reflexivity.
  - intros E.
    apply (deploy_exit_zero_iff (T := example_text) (example_world None all_succeed)
             {| config := get_default_config |} _ "main.py" ["nope"] eq_refl) in E.
    destruct E as [E _]. discriminate E.
Defined.

Lemma backup_exit_zero_iff_witness :
  exit_status (T := example_text) (example_world None all_succeed)
    ["main.py"; "backup"] = 0%Z /\
  exit_status (T := example_text) (example_world (Some backups_off) all_succeed)
    ["main.py"; "backup"] <> 0%Z.
Proof.
  split.
  - apply (backup_exit_zero_iff (T := example_text) (example_world None all_succeed)
             {| config := get_default_config |} _ _ "main.py" [] eq_refl eq_refl).
    split; [reflexivity|]. exists "done", "". reflexivity.
  - intros E.
    apply (backup_exit_zero_iff (T := example_text)
             (example_world (Some backups_off) all_succeed)
             {| config := backups_off |} _ _ "main.py" [] eq_refl eq_refl) in E.
    destruct E as [E _]. discriminate E.
Defined.

(** A moment later, within the same second, the derived path is the
    same. *)
Lemma derived_backup_path_by_second_witness :
  derived_backup_path (T := example_text) (example_world None all_succeed)
    (VStr "/var/www/html") =
  derived_backup_path (T := example_text)
    (at_time (example_world None all_succeed) a_moment_later)
    (VStr "/var/www/html").
Proof.
  apply (derived_backup_path_by_second (T := example_text)
           (example_world None all_succeed)
           (at_time (example_world None all_succeed) a_moment_later)
           (VStr "/var/www/html")).
  - exact example_now_valid.
  - unfold valid_datetime, a_moment_later.
    cbn [now at_time year month day hour minute second microsecond].
    change (10 ^ 4) with (10 * (10 * (10 * 10))).
    change (10 ^ 6) with (10 * (10 * (10 * (10 * (10 * 10))))).
    lia.
  - repeat split.
Defined.

